(** * ciao_contrib.downloadutils: URL retrieval with a curl/wget fall back

    A shallow embedding of [src/ciao_contrib/downloadutils.py].  The two
    functions of the module, [manual_download] and [retrieve_url], talk to
    three collaborators: the module logger ([v3], [v4]),
    [urllib.request.urlopen] and [subprocess.check_output].  They are modelled
    in a small monad that threads the state of the outside world, collects
    the calls made to the collaborators in a trace, and returns either a value
    or the Python exception that escaped. *)

From Stdlib Require Import ZArith List Bool Ascii String Lia.
From Stdlib Require DecimalString.
Import ListNotations.

Local Open Scope string_scope.
Local Open Scope Z_scope.

(** ** Python strings *)

Module PyStr.

(** [s.startswith(sub)] *)
Fixpoint startswith (s sub : string) {struct sub} : bool :=
  match sub, s with
  | EmptyString, _ => true
  | String _ _, EmptyString => false
  | String c sub', String d s' => Ascii.eqb c d && startswith s' sub'
  end.

(** [s.find(sub)], counted from offset [i]: the lowest index at which
    [sub] occurs in [s], and [-1] when it does not occur. *)
Fixpoint find_from (i : Z) (s sub : string) : Z :=
  if startswith s sub then i
  else match s with
       | EmptyString => -1
       | String _ s' => find_from (i + 1) s' sub
       end.

Definition find (s sub : string) : Z := find_from 0 s sub.

(** What the prose calls "[s] contains the substring [sub]". *)
Definition contains (s sub : string) : Prop :=
  exists pre post, s = pre ++ sub ++ post.

(** [c.lower()] on one ASCII character. *)
Definition lower_ascii (c : ascii) : ascii :=
  let n := nat_of_ascii c in
  if (Nat.leb 65 n && Nat.leb n 90)%bool then ascii_of_nat (n + 32) else c.

(** [s.lower()] on ASCII text. *)
Fixpoint lower (s : string) : string :=
  match s with
  | EmptyString => EmptyString
  | String c s' => String (lower_ascii c) (lower s')
  end.

(** Two texts that differ in letter case only (and do differ). *)
Definition differs_only_in_case (s t : string) : Prop :=
  lower s = lower t /\ s <> t.

End PyStr.

(** ** Python values, exceptions and responses *)

Definition bytes := list Byte.byte.

(** The Python values the module handles: [None], integers, [str] objects
    and any other object, of which only the class name and the result of
    [str(obj)] matter here (a float timeout, an [ssl.SSLError] stored in the
    [reason] attribute, ...). *)
Inductive value :=
| VNone
| VInt (z : Z)
| VStr (s : string)
| VObj (class_name : string) (str_form : string).

(** [obj is None] *)
Definition is_None (v : value) : bool :=
  match v with
  | VNone => true
  | _ => false
  end.

(** [str(obj)] *)
Definition py_str (v : value) : string :=
  match v with
  | VNone => "None"
  | VInt z => DecimalString.NilZero.string_of_int (Z.to_int z)
  | VStr s => s
  | VObj _ text => text
  end.

(** The exception classes that can reach the module, with Python's class
    hierarchy: [urllib.error], [subprocess] and the builtins. *)
Inductive exn_class :=
| BaseException
| KeyboardInterrupt
| Exception
| ValueError
| RuntimeError
| OSError
| FileNotFoundError
| PermissionError
| TimeoutError
| URLError
| HTTPError
| ContentTooShortError
| SubprocessError
| CalledProcessError.

Definition exn_class_eqb (c d : exn_class) : bool :=
  match c, d with
  | BaseException, BaseException
  | KeyboardInterrupt, KeyboardInterrupt
  | Exception, Exception
  | ValueError, ValueError
  | RuntimeError, RuntimeError
  | OSError, OSError
  | FileNotFoundError, FileNotFoundError
  | PermissionError, PermissionError
  | TimeoutError, TimeoutError
  | URLError, URLError
  | HTTPError, HTTPError
  | ContentTooShortError, ContentTooShortError
  | SubprocessError, SubprocessError
  | CalledProcessError, CalledProcessError => true
  | _, _ => false
  end.

(** The direct base class. *)
Definition base (c : exn_class) : option exn_class :=
  match c with
  | BaseException => None
  | KeyboardInterrupt => Some BaseException
  | Exception => Some BaseException
  | ValueError => Some Exception
  | RuntimeError => Some Exception
  | OSError => Some Exception
  | FileNotFoundError => Some OSError
  | PermissionError => Some OSError
  | TimeoutError => Some OSError
  | URLError => Some OSError
  | HTTPError => Some URLError
  | ContentTooShortError => Some URLError
  | SubprocessError => Some Exception
  | CalledProcessError => Some SubprocessError
  end.

Fixpoint issubclass_fuel (fuel : nat) (c d : exn_class) : bool :=
  exn_class_eqb c d ||
  match fuel, base c with
  | S fuel', Some b => issubclass_fuel fuel' b d
  | _, _ => false
  end.

(** [issubclass(c, d)]; no class above is deeper than four levels. *)
Definition issubclass (c d : exn_class) : bool := issubclass_fuel 4 c d.

(** An exception object: its class and its argument.  [URLError(reason)]
    keeps the argument as its [reason] attribute, and [HTTPError.reason] is
    its message.  What the interpreter records on the object while it
    travels ([__traceback__], [__context__]) is not part of the value. *)
Record exn := Exn { exc_class : exn_class; exc_arg : value }.

Definition reason (e : exn) : value := exc_arg e.

(** [isinstance(e, cls)], the test an [except cls] clause makes. *)
Definition isinstance (e : exn) (cls : exn_class) : bool :=
  issubclass (exc_class e) cls.

Inductive result (A : Type) :=
| Ok (a : A)
| Err (e : exn).
Arguments Ok {A} a.
Arguments Err {A} e.

(** What the callers get back: either the object [urlopen] produced, a
    reader over an open connection whose body has not been read, or an
    [io.BytesIO] buffer that holds the payload. *)
Inductive response :=
| HTTPResponse (connection : nat)
| BytesIO (buf : bytes).

(** Does the object hold its payload in memory? *)
Definition in_memory (r : response) : bool :=
  match r with
  | BytesIO _ => true
  | HTTPResponse _ => false
  end.

(** ** The collaborators and the trace of calls made to them *)

(** An argument of a [str.format] call handed to the logger. *)
Inductive logarg :=
| AStr (s : string)
| AVal (v : value)
| AExn (e : exn)
| AList (l : list string).

Inductive event :=
| EvLog (level : nat) (template : string) (args : list logarg)
| EvUrlopen (url : string) (timeout : option value)
| EvCheckOutput (args : list string).

(** The outside world: its state, [urllib.request.urlopen] (called with a
    url and, optionally, the [timeout] keyword) and
    [subprocess.check_output]. *)
Record env := Env {
  World : Type;
  urlopen_impl : string -> option value -> World -> World * result response;
  check_output_impl : list string -> World -> World * result bytes
}.

(** ** The monad of the module's code *)

Module Py.

Section Monad.
Context {E : env}.

(** A computation runs from a state of the world and yields the calls it
    made, the new state, and a value or the exception that escaped. *)
Definition M (A : Type) : Type :=
  World E -> list event * World E * result A.

Definition ret {A} (a : A) : M A := fun w => ([], w, Ok a).

(** [raise e] *)
Definition raise {A} (e : exn) : M A := fun w => ([], w, Err e).

Definition bind {A B} (m : M A) (k : A -> M B) : M B :=
  fun w =>
    match m w with
    | (tr, w1, Ok a) => let '(tr2, w2, r) := k a w1 in ((tr ++ tr2)%list, w2, r)
    | (tr, w1, Err e) => (tr, w1, Err e)
    end.

(** [try: body / except cls as e: handler e].  An exception that is not
    an instance of [cls] passes through; one raised by the handler
    escapes. *)
Definition try_except {A} (body : M A) (cls : exn_class)
           (handler : exn -> M A) : M A :=
  fun w =>
    match body w with
    | (tr, w1, Ok a) => (tr, w1, Ok a)
    | (tr, w1, Err e) =>
        if isinstance e cls
        then let '(tr2, w2, r) := handler e w1 in ((tr ++ tr2)%list, w2, r)
        else (tr, w1, Err e)
    end.

(** A call of the logger at the given verbosity: [template.format(args)]
    is handed over, and the call returns nothing. *)
Definition log (level : nat) (template : string) (args : list logarg)
  : M unit :=
  fun w => ([EvLog level template args], w, Ok tt).

Definition v3 := log 3.
Definition v4 := log 4.

(** [urllib.request.urlopen(url)] and
    [urllib.request.urlopen(url, timeout=t)] *)
Definition urlopen (url : string) (timeout : option value) : M response :=
  fun w =>
    let '(w1, r) := urlopen_impl E url timeout w in
    ([EvUrlopen url timeout], w1, r).

(** [subprocess.check_output(args)] *)
Definition check_output (args : list string) : M bytes :=
  fun w =>
    let '(w1, r) := check_output_impl E args w in
    ([EvCheckOutput args], w1, r).

End Monad.

Arguments M : clear implicits.

Declare Scope py_scope.
Delimit Scope py_scope with py.
Notation "x <- m ;; k" := (bind m (fun x => k))
  (at level 61, m at next level, right associativity) : py_scope.
Notation "m ;; k" := (bind m (fun _ => k))
  (at level 61, right associativity) : py_scope.

End Py.

Import Py.
Local Open Scope py_scope.

(** ** The module *)

Definition newline : string := String (ascii_of_nat 10) EmptyString.

Definition curl_args (url : string) : list string :=
  ["curl"; "--silent"; "-L"; url].

Definition wget_args (url : string) : list string :=
  ["wget"; "--quiet"; "-O-"; url].

(** The message of the [RuntimeError] raised when neither program is
    installed. *)
Definition emsg (url : string) : string :=
  ("Unable to access the URL " ++ url ++ "." ++ newline) ++
  "Please install curl or wget (and if you " ++
  "continue to see this message, contact the " ++
  "CXC HelpDesk).".

(** [manual_download(url)]: try curl then wget to query the URL. *)
Definition manual_download {E : env} (url : string) : M E response :=
  v3 "Fall back to curl or wget to download: {}" [AStr url] ;;
  let args := curl_args url in
  v4 "About to execute: {}" [AList args] ;;
  rsp <- try_except (check_output args) FileNotFoundError (fun exc1 =>
           v3 "Unable to call curl: {}" [AExn exc1] ;;
           let args := wget_args url in
           v4 "About to execute: {}" [AList args] ;;
           try_except (check_output args) FileNotFoundError (fun exc2 =>
             v3 "Unable to call wget: {}" [AExn exc2] ;;
             raise (Exn RuntimeError (VStr (emsg url))))) ;;
  ret (BytesIO rsp).

(** [retrieve_url(url, timeout=None)]: handle possible problems retrieving
    the URL contents. *)
Definition retrieve_url {E : env} (url : string) (timeout : value)
  : M E response :=
  try_except
    (v3 "Retrieving URL: {} timeout={}" [AStr url; AVal timeout] ;;
     if is_None timeout
     then urlopen url None
     else urlopen url (Some timeout))
    URLError
    (fun ue =>
       v3 "Error opening URL: {}" [AExn ue] ;;
       v3 "error.reason = {}" [AVal (reason ue)] ;;
       let reason := py_str (reason ue) in
       if negb (PyStr.find reason "unknown url type: https" =? -1) ||
          negb (PyStr.find reason "CERTIFICATE_VERIFY_FAILED" =? -1)
       then manual_download url
       else raise ue).

(** ** Reading a run *)

Definition trace_of {W A} (run : list event * W * result A) : list event :=
  fst (fst run).

Definition world_of {W A} (run : list event * W * result A) : W :=
  snd (fst run).

Definition outcome_of {W A} (run : list event * W * result A) : result A :=
  snd run.

(** The [urlopen] calls of a trace, in order: the url and the [timeout]
    keyword, [None] when the call was made without one. *)
Fixpoint urlopen_calls (tr : list event) : list (string * option value) :=
  match tr with
  | [] => []
  | EvUrlopen url timeout :: tr' => (url, timeout) :: urlopen_calls tr'
  | _ :: tr' => urlopen_calls tr'
  end.

(** The argument lists of the [check_output] calls of a trace, in order. *)
Fixpoint check_output_calls (tr : list event) : list (list string) :=
  match tr with
  | [] => []
  | EvCheckOutput args :: tr' => args :: check_output_calls tr'
  | _ :: tr' => check_output_calls tr'
  end.

(** The first statement of [manual_download] announces the fall back, so
    this event marks an entry into that function. *)
Definition enters_manual_download (ev : event) : bool :=
  match ev with
  | EvLog 3 template _ =>
      String.eqb template "Fall back to curl or wget to download: {}"
  | _ => false
  end.

(** The keyword [retrieve_url] is expected to hand to [urlopen]. *)
Definition timeout_kwarg (timeout : value) : option value :=
  match timeout with
  | VNone => None
  | t => Some t
  end.

(** The native fetch of [retrieve_url(url, timeout)], started in world [w],
    raises [e] and leaves the world in state [w1]. *)
Definition native_fetch_raises (E : env) (url : string) (timeout : value)
           (w w1 : World E) (e : exn) : Prop :=
  urlopen_impl E url (timeout_kwarg timeout) w = (w1, Err e).

(** The calls [retrieve_url] has made once an [URLError] is caught and
    logged. *)
Definition failed_fetch_trace (url : string) (timeout : value) (ue : exn)
  : list event :=
  [ EvLog 3 "Retrieving URL: {} timeout={}" [AStr url; AVal timeout];
    EvUrlopen url (timeout_kwarg timeout);
    EvLog 3 "Error opening URL: {}" [AExn ue];
    EvLog 3 "error.reason = {}" [AVal (reason ue)] ].

(** The calls [manual_download] makes up to and including the curl run. *)
Definition curl_attempt (url : string) : list event :=
  [ EvLog 3 "Fall back to curl or wget to download: {}" [AStr url];
    EvLog 4 "About to execute: {}" [AList ["curl"; "--silent"; "-L"; url]];
    EvCheckOutput ["curl"; "--silent"; "-L"; url] ].

(** The calls it makes after curl was not found, up to the wget run. *)
Definition wget_attempt (url : string) (exc1 : exn) : list event :=
  [ EvLog 3 "Unable to call curl: {}" [AExn exc1];
    EvLog 4 "About to execute: {}" [AList ["wget"; "--quiet"; "-O-"; url]];
    EvCheckOutput ["wget"; "--quiet"; "-O-"; url] ].

(** The condition of the [if] in the [except URLError] clause. *)
Definition no_ssl_support (reason : string) : bool :=
  negb (PyStr.find reason "unknown url type: https" =? -1) ||
  negb (PyStr.find reason "CERTIFICATE_VERIFY_FAILED" =? -1).

(** ** Concrete worlds *)

(** A world that answers from a script: [net] decides what [urlopen] does,
    [curl] and [wget] what running each program gives; any other program
    is not installed.  The state counts the calls made so far. *)
Definition scripted (net : string -> option value -> result response)
           (curl wget : result bytes) : env :=
  {| World := nat;
     urlopen_impl := fun url timeout n => (S n, net url timeout);
     check_output_impl := fun args n =>
       (S n,
        match args with
        | "curl" :: _ => curl
        | "wget" :: _ => wget
        | _ => Err (Exn FileNotFoundError (VStr "No such file or directory"))
        end) |}.

Definition not_found (program : string) : exn :=
  Exn FileNotFoundError
      (VStr ("[Errno 2] No such file or directory: '" ++ program ++ "'")).

Definition exit_status (program : string) (code : string) : exn :=
  Exn CalledProcessError
      (VStr ("Command '" ++ program ++ "' returned non-zero exit status "
             ++ code ++ ".")).

Definition payload : bytes := [Byte.x50; Byte.x4b; Byte.x03; Byte.x04].

(** Python built without SSL: https has no handler. *)
Definition no_https_handler : exn :=
  Exn URLError (VStr "unknown url type: https").

(** The certificate store is unusable: [reason] is an [ssl.SSLError]. *)
Definition bad_certificate : exn :=
  Exn URLError
      (VObj "ssl.SSLCertVerificationError"
            "[SSL: CERTIFICATE_VERIFY_FAILED] certificate verify failed (_ssl.c:719)").

(** The server is down: [reason] is a [ConnectionRefusedError]. *)
Definition connection_refused : exn :=
  Exn URLError (VObj "ConnectionRefusedError" "[Errno 111] Connection refused").

(** The reason spells a trigger in lower case. *)
Definition lower_case_certificate : exn :=
  Exn URLError (VStr "certificate_verify_failed").

(** A [ValueError] whose text happens to hold a trigger. *)
Definition odd_value_error : exn :=
  Exn ValueError (VStr "unknown url type: https").

Definition always_raises (e : exn) : string -> option value -> result response :=
  fun _ _ => Err e.

Definition serves (connection : nat) : string -> option value -> result response :=
  fun _ _ => Ok (HTTPResponse connection).

Definition cxc : string := "https://cxc.cfa.harvard.edu/cda/data/obs.tar".

(** ** The shapes a run can take *)

(** The five ways through [manual_download(url)] from world [w], each with
    what [check_output] did on the way. *)
Inductive manual_download_run {E : env} (url : string) (w : World E)
  : list event * World E * result response -> Prop :=
| CurlWorked (w1 : World E) (out : bytes) :
    check_output_impl E ["curl"; "--silent"; "-L"; url] w = (w1, Ok out) ->
    manual_download_run url w (curl_attempt url, w1, Ok (BytesIO out))
| CurlFailed (w1 : World E) (e : exn) :
    check_output_impl E ["curl"; "--silent"; "-L"; url] w = (w1, Err e) ->
    isinstance e FileNotFoundError = false ->
    manual_download_run url w (curl_attempt url, w1, Err e)
| WgetWorked (w1 w2 : World E) (exc1 : exn) (out : bytes) :
    check_output_impl E ["curl"; "--silent"; "-L"; url] w = (w1, Err exc1) ->
    isinstance exc1 FileNotFoundError = true ->
    check_output_impl E ["wget"; "--quiet"; "-O-"; url] w1 = (w2, Ok out) ->
    manual_download_run url w
      ((curl_attempt url ++ wget_attempt url exc1)%list, w2, Ok (BytesIO out))
| WgetFailed (w1 w2 : World E) (exc1 e : exn) :
    check_output_impl E ["curl"; "--silent"; "-L"; url] w = (w1, Err exc1) ->
    isinstance exc1 FileNotFoundError = true ->
    check_output_impl E ["wget"; "--quiet"; "-O-"; url] w1 = (w2, Err e) ->
    isinstance e FileNotFoundError = false ->
    manual_download_run url w
      ((curl_attempt url ++ wget_attempt url exc1)%list, w2, Err e)
| NothingInstalled (w1 w2 : World E) (exc1 exc2 : exn) :
    check_output_impl E ["curl"; "--silent"; "-L"; url] w = (w1, Err exc1) ->
    isinstance exc1 FileNotFoundError = true ->
    check_output_impl E ["wget"; "--quiet"; "-O-"; url] w1 = (w2, Err exc2) ->
    isinstance exc2 FileNotFoundError = true ->
    manual_download_run url w
      ((curl_attempt url ++ wget_attempt url exc1 ++
          [EvLog 3 "Unable to call wget: {}" [AExn exc2]])%list,
       w2, Err (Exn RuntimeError (VStr (emsg url)))).

(** The calls [retrieve_url] makes when nothing is caught. *)
Definition fetch_trace (url : string) (timeout : value) : list event :=
  [ EvLog 3 "Retrieving URL: {} timeout={}" [AStr url; AVal timeout];
    EvUrlopen url (timeout_kwarg timeout) ].

(** The four ways through [retrieve_url(url, timeout)] from world [w]. *)
Inductive retrieve_url_run {E : env} (url : string) (timeout : value)
          (w : World E)
  : list event * World E * result response -> Prop :=
| NativeWorked (w1 : World E) (r : response) :
    urlopen_impl E url (timeout_kwarg timeout) w = (w1, Ok r) ->
    retrieve_url_run url timeout w (fetch_trace url timeout, w1, Ok r)
| NotCaught (w1 : World E) (e : exn) :
    native_fetch_raises E url timeout w w1 e ->
    isinstance e URLError = false ->
    retrieve_url_run url timeout w (fetch_trace url timeout, w1, Err e)
| Reraised (w1 : World E) (ue : exn) :
    native_fetch_raises E url timeout w w1 ue ->
    isinstance ue URLError = true ->
    no_ssl_support (py_str (reason ue)) = false ->
    retrieve_url_run url timeout w
      (failed_fetch_trace url timeout ue, w1, Err ue)
| FellBack (w1 w2 : World E) (ue : exn) (tr : list event)
           (r : result response) :
    native_fetch_raises E url timeout w w1 ue ->
    isinstance ue URLError = true ->
    no_ssl_support (py_str (reason ue)) = true ->
    manual_download url w1 = (tr, w2, r) ->
    manual_download_run url w1 (tr, w2, r) ->
    retrieve_url_run url timeout w
      ((failed_fetch_trace url timeout ue ++ tr)%list, w2, r).

(** ** Commands and their announcement in the log *)

Fixpoint strings_eqb (l1 l2 : list string) : bool :=
  match l1, l2 with
  | [], [] => true
  | s1 :: l1', s2 :: l2' => String.eqb s1 s2 && strings_eqb l1' l2'
  | _, _ => false
  end.

(** [ev] is the call [v4("About to execute: {}".format(args))]. *)
Definition announces (ev : event) (args : list string) : bool :=
  match ev with
  | EvLog 4 template [AList l] =>
      String.eqb template "About to execute: {}" && strings_eqb l args
  | _ => false
  end.

(** Every [check_output] call of the trace comes right after the logger
    call that announces its argument list; [prev] is the event before the
    trace. *)
Fixpoint announced_from (prev : option event) (tr : list event) : bool :=
  match tr with
  | [] => true
  | ev :: tr' =>
      match ev with
      | EvCheckOutput args =>
          match prev with
          | Some p => announces p args
          | None => false
          end
      | _ => true
      end && announced_from (Some ev) tr'
  end.

Definition commands_announced (tr : list event) : bool :=
  announced_from None tr.

(** A server that answers, and programs that are all in place. *)
Definition healthy : env :=
  scripted (serves 7) (Ok payload) (Ok payload).

(** Python without SSL on a machine with curl. *)
Definition no_ssl_with_curl : env :=
  scripted (always_raises no_https_handler) (Ok payload) (Ok payload).

(** Python without SSL on a machine with wget only. *)
Definition no_ssl_with_wget : env :=
  scripted (always_raises no_https_handler) (Err (not_found "curl")) (Ok payload).

(** Python without SSL on a machine with neither program. *)
Definition no_ssl_bare : env :=
  scripted (always_raises no_https_handler)
           (Err (not_found "curl")) (Err (not_found "wget")).

(** Python without SSL, and a curl that cannot resolve the host. *)
Definition no_ssl_curl_exits : env :=
  scripted (always_raises no_https_handler)
           (Err (exit_status "curl" "6")) (Ok payload).

(** * Properties *)

(** ** Substring search *)

Module PyStrFacts.
Import PyStr.

Lemma startswith_app (s sub : string) :
  startswith s sub = true <-> exists post, s = sub ++ post.
Proof.
  revert s; induction sub as [|c sub IH]; intros s; simpl.
  - split; [intros _; now exists s | reflexivity].
  - destruct s as [|d s].
    + split; [discriminate | intros [post H]; discriminate].
    + rewrite andb_true_iff, Ascii.eqb_eq, IH. split.
      * intros [-> [post ->]]. now exists post.
      * intros [post H]. injection H as -> ->. split; [reflexivity | now exists post].
Qed.

Lemma find_from_lower_bound (s sub : string) (i : Z) :
  0 <= i -> find_from i s sub = -1 \/ i <= find_from i s sub.
Proof.
  revert i; induction s as [|d s IH]; intros i Hi; simpl.
  - destruct (startswith "" sub); [right | left]; lia.
  - destruct (startswith (String d s) sub); [right; lia|].
    destruct (IH (i + 1) ltac:(lia)) as [H|H]; [left | right]; lia.
Qed.

Lemma find_from_found (s sub : string) (i : Z) :
  0 <= i -> find_from i s sub <> -1 <-> contains s sub.
Proof.
  revert i; induction s as [|d s IH]; intros i Hi; simpl.
  - destruct (startswith "" sub) eqn:E.
    + split; [intros _ | lia].
      apply startswith_app in E as [post E]. now exists "", post.
    + split; [congruence|]. intros [pre [post H]].
      destruct pre; [|discriminate]. simpl in H.
      assert (startswith "" sub = true) by (apply startswith_app; now exists post).
      congruence.
  - destruct (startswith (String d s) sub) eqn:E.
    + split; [intros _ | lia].
      apply startswith_app in E as [post E]. now exists "", post.
    + rewrite (IH (i + 1)) by lia. split.
      * intros [pre [post ->]]. now exists (String d pre), post.
      * intros [pre [post H]]. destruct pre as [|c pre]; simpl in H.
        -- assert (startswith (String d s) sub = true)
             by (apply startswith_app; now exists post).
           congruence.
        -- injection H as _ ->. now exists pre, post.
Qed.

(** [s.find(sub) != -1] is the substring test. *)
Lemma find_found (s sub : string) : find s sub <> -1 <-> contains s sub.
Proof. apply find_from_found; lia. Qed.

Lemma find_neqb (s sub : string) :
  negb (find s sub =? -1) = true <-> contains s sub.
Proof.
  rewrite negb_true_iff, Z.eqb_neq. apply find_found.
Qed.

Lemma find_neqb_false (s sub : string) :
  negb (find s sub =? -1) = false <-> ~ contains s sub.
Proof.
  rewrite <- find_neqb. destruct (negb (find s sub =? -1)); split; congruence.
Qed.

Lemma length_app (a b : string) :
  String.length (a ++ b) = (String.length a + String.length b)%nat.
Proof. induction a; simpl; congruence. Qed.

Lemma lower_app (a b : string) : lower (a ++ b) = lower a ++ lower b.
Proof. induction a; simpl; congruence. Qed.

Lemma lower_length (s : string) : String.length (lower s) = String.length s.
Proof. induction s; simpl; congruence. Qed.

Lemma contains_lower (s sub : string) :
  contains s sub -> contains (lower s) (lower sub).
Proof.
  intros [pre [post ->]]. exists (lower pre), (lower post).
  now rewrite !lower_app.
Qed.

Lemma app_nil_r (a : string) : a ++ "" = a.
Proof. induction a; simpl; congruence. Qed.

Lemma app_assoc (a b c : string) : (a ++ b) ++ c = a ++ b ++ c.
Proof. induction a; simpl; congruence. Qed.

(** A text that contains a substring of its own length is that substring. *)
Lemma contains_same_length (s sub : string) :
  contains s sub -> String.length s = String.length sub -> s = sub.
Proof.
  intros [pre [post ->]] H. rewrite !length_app in H.
  destruct pre; [|simpl in H; lia].
  destruct post; [|simpl in H; lia].
  simpl. apply app_nil_r.
Qed.

End PyStrFacts.

(** ** The fall-back test *)

Lemma no_ssl_support_true (s : string) :
  no_ssl_support s = true <->
  PyStr.contains s "unknown url type: https" \/
  PyStr.contains s "CERTIFICATE_VERIFY_FAILED".
Proof.
  unfold no_ssl_support.
  now rewrite orb_true_iff, !PyStrFacts.find_neqb.
Qed.

Lemma no_ssl_support_false (s : string) :
  no_ssl_support s = false <->
  ~ PyStr.contains s "unknown url type: https" /\
  ~ PyStr.contains s "CERTIFICATE_VERIFY_FAILED".
Proof.
  unfold no_ssl_support.
  now rewrite orb_false_iff, !PyStrFacts.find_neqb_false.
Qed.

(** A case variant of a trigger holds neither trigger. *)
Lemma case_variant_no_ssl_support (s : string) :
  PyStr.differs_only_in_case s "unknown url type: https" \/
  PyStr.differs_only_in_case s "CERTIFICATE_VERIFY_FAILED" ->
  no_ssl_support s = false.
Proof.
  intros H. apply no_ssl_support_false.
  assert (Hfind : forall a b : string,
             PyStr.contains (PyStr.lower s) (PyStr.lower b) ->
             PyStr.lower s = a -> PyStr.find a (PyStr.lower b) = -1 -> False).
  { intros a b Hc <- Hf. now apply PyStrFacts.find_found in Hc. }
  destruct H as [[Hl Hne] | [Hl Hne]]; split; intros Hc.
  - apply Hne, PyStrFacts.contains_same_length; [exact Hc|].
    rewrite <- (PyStrFacts.lower_length s), Hl. reflexivity.
  - apply PyStrFacts.contains_lower in Hc.
    apply (Hfind _ _ Hc Hl). reflexivity.
  - apply PyStrFacts.contains_lower in Hc.
    apply (Hfind _ _ Hc Hl). reflexivity.
  - apply Hne, PyStrFacts.contains_same_length; [exact Hc|].
    rewrite <- (PyStrFacts.lower_length s), Hl. reflexivity.
Qed.

(** ** Runs of [retrieve_url] *)

Section RetrieveUrl.
Context {E : env}.
Variables (url : string) (timeout : value).

(** The body of the [try] makes one [urlopen] call, with the keyword
    [timeout_kwarg] describes. *)
Lemma try_body_run (w : World E) :
  (v3 "Retrieving URL: {} timeout={}" [AStr url; AVal timeout] ;;
   if is_None timeout
   then urlopen url None
   else urlopen url (Some timeout)) w =
  let '(w1, r) := urlopen_impl E url (timeout_kwarg timeout) w in
  ([EvLog 3 "Retrieving URL: {} timeout={}" [AStr url; AVal timeout];
    EvUrlopen url (timeout_kwarg timeout)], w1, r).
Proof.
  unfold bind, v3, log, urlopen.
  destruct timeout; simpl;
    match goal with
    | |- context [urlopen_impl E ?u ?t ?x] =>
        destruct (urlopen_impl E u t x) as [w1 r]
    end; reflexivity.
Qed.

(** A native fetch that succeeds: the object [urlopen] produced is handed
    back as it is. *)
Lemma retrieve_url_native_success (w w1 : World E) (r : response) :
  urlopen_impl E url (timeout_kwarg timeout) w = (w1, Ok r) ->
  retrieve_url url timeout w =
  ([EvLog 3 "Retrieving URL: {} timeout={}" [AStr url; AVal timeout];
    EvUrlopen url (timeout_kwarg timeout)], w1, Ok r).
Proof.
  intros H. unfold retrieve_url, try_except.
  rewrite try_body_run, H. reflexivity.
Qed.

(** A native fetch that raises something the [except] clause does not
    name. *)
Lemma retrieve_url_uncaught (w w1 : World E) (e : exn) :
  native_fetch_raises E url timeout w w1 e ->
  isinstance e URLError = false ->
  retrieve_url url timeout w =
  ([EvLog 3 "Retrieving URL: {} timeout={}" [AStr url; AVal timeout];
    EvUrlopen url (timeout_kwarg timeout)], w1, Err e).
Proof.
  intros H Hi. unfold retrieve_url, try_except.
  rewrite try_body_run, H, Hi. reflexivity.
Qed.

(** A native fetch that raises an [URLError]: the handler decides on
    [str(ue.reason)]. *)
Lemma retrieve_url_caught (w w1 : World E) (ue : exn) :
  native_fetch_raises E url timeout w w1 ue ->
  isinstance ue URLError = true ->
  retrieve_url url timeout w =
  if no_ssl_support (py_str (reason ue))
  then let '(tr, w2, r) := manual_download url w1 in
       (failed_fetch_trace url timeout ue ++ tr, w2, r)%list
  else (failed_fetch_trace url timeout ue, w1, Err ue).
Proof.
  intros H Hi. unfold retrieve_url, try_except.
  rewrite try_body_run, H, Hi.
  unfold bind, v3, log. fold (no_ssl_support (py_str (reason ue))).
  destruct (no_ssl_support (py_str (reason ue))).
  - destruct (manual_download url w1) as [[tr w2] r]. reflexivity.
  - reflexivity.
Qed.

End RetrieveUrl.

(** ** Runs of [manual_download] *)

Section ManualDownload.
Context {E : env}.
Variable url : string.

Ltac run_manual_download :=
  unfold manual_download, try_except, bind, v3, v4, log, check_output,
    raise, ret, curl_args, wget_args; simpl.

Lemma manual_download_curl_ok (w w1 : World E) (out : bytes) :
  check_output_impl E ["curl"; "--silent"; "-L"; url] w = (w1, Ok out) ->
  manual_download url w = (curl_attempt url, w1, Ok (BytesIO out)).
Proof. intros H. run_manual_download. rewrite H. reflexivity. Qed.

Lemma manual_download_curl_fails (w w1 : World E) (e : exn) :
  check_output_impl E ["curl"; "--silent"; "-L"; url] w = (w1, Err e) ->
  isinstance e FileNotFoundError = false ->
  manual_download url w = (curl_attempt url, w1, Err e).
Proof. intros H Hi. run_manual_download. rewrite H, Hi. reflexivity. Qed.

Lemma manual_download_wget_ok (w w1 w2 : World E) (exc1 : exn) (out : bytes) :
  check_output_impl E ["curl"; "--silent"; "-L"; url] w = (w1, Err exc1) ->
  isinstance exc1 FileNotFoundError = true ->
  check_output_impl E ["wget"; "--quiet"; "-O-"; url] w1 = (w2, Ok out) ->
  manual_download url w =
  (curl_attempt url ++ wget_attempt url exc1, w2, Ok (BytesIO out))%list.
Proof.
  intros H Hi H2. run_manual_download. rewrite H, Hi, H2. reflexivity.
Qed.

Lemma manual_download_wget_fails (w w1 w2 : World E) (exc1 e : exn) :
  check_output_impl E ["curl"; "--silent"; "-L"; url] w = (w1, Err exc1) ->
  isinstance exc1 FileNotFoundError = true ->
  check_output_impl E ["wget"; "--quiet"; "-O-"; url] w1 = (w2, Err e) ->
  isinstance e FileNotFoundError = false ->
  manual_download url w =
  (curl_attempt url ++ wget_attempt url exc1, w2, Err e)%list.
Proof.
  intros H Hi H2 Hi2. run_manual_download. rewrite H, Hi, H2, Hi2.
  reflexivity.
Qed.

Lemma manual_download_nothing_installed (w w1 w2 : World E) (exc1 exc2 : exn) :
  check_output_impl E ["curl"; "--silent"; "-L"; url] w = (w1, Err exc1) ->
  isinstance exc1 FileNotFoundError = true ->
  check_output_impl E ["wget"; "--quiet"; "-O-"; url] w1 = (w2, Err exc2) ->
  isinstance exc2 FileNotFoundError = true ->
  manual_download url w =
  (curl_attempt url ++ wget_attempt url exc1 ++
     [EvLog 3 "Unable to call wget: {}" [AExn exc2]],
   w2, Err (Exn RuntimeError (VStr (emsg url))))%list.
Proof.
  intros H Hi H2 Hi2. run_manual_download. rewrite H, Hi, H2, Hi2.
  reflexivity.
Qed.

(** Every run of [manual_download] is one of the five above. *)
Lemma manual_download_cases (w : World E) :
  exists tail w' r,
    manual_download url w = (curl_attempt url ++ tail, w', r)%list /\
    (tail = [] \/
     (exists exc1, tail = wget_attempt url exc1) \/
     (exists exc1 exc2,
         tail = (wget_attempt url exc1 ++
                   [EvLog 3 "Unable to call wget: {}" [AExn exc2]])%list)) /\
    (forall resp, r = Ok resp -> exists out, resp = BytesIO out).
Proof.
  destruct (check_output_impl E ["curl"; "--silent"; "-L"; url] w)
    as [w1 [out|exc1]] eqn:H.
  - exists [], w1, (Ok (BytesIO out)).
    rewrite (manual_download_curl_ok _ _ _ H).
    repeat split; [now left|]. intros resp [= <-]. now exists out.
  - destruct (isinstance exc1 FileNotFoundError) eqn:Hi.
    + destruct (check_output_impl E ["wget"; "--quiet"; "-O-"; url] w1)
        as [w2 [out|exc2]] eqn:H2.
      * exists (wget_attempt url exc1), w2, (Ok (BytesIO out)).
        rewrite (manual_download_wget_ok _ _ _ _ _ H Hi H2).
        repeat split; [right; left; now exists exc1|].
        intros resp [= <-]. now exists out.
      * destruct (isinstance exc2 FileNotFoundError) eqn:Hi2.
        -- eexists _, w2, _.
           rewrite (manual_download_nothing_installed _ _ _ _ _ H Hi H2 Hi2).
           repeat split; [right; right; now exists exc1, exc2|].
           intros resp [=].
        -- exists (wget_attempt url exc1), w2, (Err exc2).
           rewrite (manual_download_wget_fails _ _ _ _ _ H Hi H2 Hi2).
           repeat split; [right; left; now exists exc1|].
           intros resp [=].
    + exists [], w1, (Err exc1).
      rewrite (manual_download_curl_fails _ _ _ H Hi).
      repeat split; [now left|]. intros resp [=].
Qed.

(** [manual_download] never calls [urlopen]. *)
Lemma manual_download_no_urlopen (w : World E) :
  urlopen_calls (trace_of (manual_download url w)) = [].
Proof.
  destruct (manual_download_cases w) as (tail & w' & r & -> & Ht & _).
  destruct Ht as [-> | [[exc1 ->] | [exc1 [exc2 ->]]]]; reflexivity.
Qed.

(** The programs [manual_download] runs get the url and fixed flags. *)
Lemma manual_download_commands (w : World E) :
  Forall (fun args => args = ["curl"; "--silent"; "-L"; url] \/
                      args = ["wget"; "--quiet"; "-O-"; url])
         (check_output_calls (trace_of (manual_download url w))).
Proof.
  destruct (manual_download_cases w) as (tail & w' & r & -> & Ht & _).
  destruct Ht as [-> | [[exc1 ->] | [exc1 [exc2 ->]]]]; simpl;
    repeat (apply Forall_cons; [auto|]); apply Forall_nil.
Qed.

(** Every run of [manual_download] starts with the announcement. *)
Lemma manual_download_announced (w : World E) :
  exists ev tr, trace_of (manual_download url w) = ev :: tr /\
                enters_manual_download ev = true.
Proof.
  destruct (manual_download_cases w) as (tail & w' & r & -> & _).
  eexists _, _. split; reflexivity.
Qed.

End ManualDownload.

(** ** The fall back of [retrieve_url] *)

(** C1: when the native fetch of [retrieve_url(url, timeout)] raises an
    [URLError] whose reason text contains "unknown url type: https" or
    "CERTIFICATE_VERIFY_FAILED", the error is not raised: after logging it,
    [retrieve_url] runs [manual_download(url)] with the same url, in the world
    the failed fetch left, and its outcome is the outcome of that call. *)
Theorem retrieve_url_falls_back_to_manual_download
        (E : env) (url : string) (timeout : value) (w w1 : World E) (ue : exn) :
  native_fetch_raises E url timeout w w1 ue ->
  isinstance ue URLError = true ->
  PyStr.contains (py_str (reason ue)) "unknown url type: https" \/
  PyStr.contains (py_str (reason ue)) "CERTIFICATE_VERIFY_FAILED" ->
  trace_of (retrieve_url url timeout w) =
    (failed_fetch_trace url timeout ue ++ trace_of (manual_download url w1))%list /\
  world_of (retrieve_url url timeout w) = world_of (manual_download url w1) /\
  outcome_of (retrieve_url url timeout w) = outcome_of (manual_download url w1).
Proof.
  intros Hfetch Hinst Hreason.
  rewrite (retrieve_url_caught url timeout w w1 ue Hfetch Hinst).
  apply no_ssl_support_true in Hreason. rewrite Hreason.
  destruct (manual_download url w1) as [[tr w2] r]. now repeat split.
Qed.

Lemma retrieve_url_falls_back_to_manual_download_witness :
  let E := scripted (always_raises bad_certificate) (Ok payload) (Ok payload) in
  native_fetch_raises E cxc (VInt 30) 0%nat 1%nat bad_certificate /\
  outcome_of (retrieve_url (E:=E) cxc (VInt 30) 0%nat) =
  outcome_of (manual_download (E:=E) cxc 1%nat) /\
  outcome_of (retrieve_url (E:=E) cxc (VInt 30) 0%nat) = Ok (BytesIO payload).
Proof.
  intros E.
  assert (Hfetch : native_fetch_raises E cxc (VInt 30) 0%nat 1%nat bad_certificate)
    by reflexivity.
  split; [exact Hfetch|].
  split; [|reflexivity].
  apply (retrieve_url_falls_back_to_manual_download
           E cxc (VInt 30) 0%nat 1%nat bad_certificate Hfetch).
  - reflexivity.
  - right. exists "[SSL: ", "] certificate verify failed (_ssl.c:719)".
    reflexivity.
Defined.

(** C2: when the native fetch raises an [URLError] whose reason text holds
    neither trigger, [retrieve_url] logs it and raises that very exception;
    [manual_download] is not entered and no external program is run. *)
Theorem retrieve_url_reraises_other_failures
        (E : env) (url : string) (timeout : value) (w w1 : World E) (ue : exn) :
  native_fetch_raises E url timeout w w1 ue ->
  isinstance ue URLError = true ->
  ~ PyStr.contains (py_str (reason ue)) "unknown url type: https" ->
  ~ PyStr.contains (py_str (reason ue)) "CERTIFICATE_VERIFY_FAILED" ->
  outcome_of (retrieve_url url timeout w) = Err ue /\
  world_of (retrieve_url url timeout w) = w1 /\
  trace_of (retrieve_url url timeout w) = failed_fetch_trace url timeout ue /\
  existsb enters_manual_download (trace_of (retrieve_url url timeout w)) = false /\
  check_output_calls (trace_of (retrieve_url url timeout w)) = [].
Proof.
  intros Hfetch Hinst Hno1 Hno2.
  rewrite (retrieve_url_caught url timeout w w1 ue Hfetch Hinst).
  assert (Hdec : no_ssl_support (py_str (reason ue)) = false)
    by now apply no_ssl_support_false.
  rewrite Hdec. now repeat split.
Qed.

Lemma retrieve_url_reraises_other_failures_witness :
  let E := scripted (always_raises connection_refused) (Ok payload) (Ok payload) in
  native_fetch_raises E cxc VNone 0%nat 1%nat connection_refused /\
  outcome_of (retrieve_url (E:=E) cxc VNone 0%nat) = Err connection_refused /\
  check_output_calls (trace_of (retrieve_url (E:=E) cxc VNone 0%nat)) = [].
Proof.
  intros E.
  assert (Hfetch : native_fetch_raises E cxc VNone 0%nat 1%nat connection_refused)
    by reflexivity.
  split; [exact Hfetch|].
  destruct (retrieve_url_reraises_other_failures
              E cxc VNone 0%nat 1%nat connection_refused Hfetch)
    as (Hout & _ & _ & _ & Hcalls).
  - reflexivity.
  - intros Hc. apply PyStrFacts.find_found in Hc. apply Hc. reflexivity.
  - intros Hc. apply PyStrFacts.find_found in Hc. apply Hc. reflexivity.
  - split; assumption.
Defined.

(** ** The chain of programs in [manual_download] *)

(** The error message names both programs and says what to do. *)
Lemma emsg_names_programs (url : string) :
  PyStr.contains (emsg url) "curl" /\
  PyStr.contains (emsg url) "wget" /\
  PyStr.contains (emsg url) "Please install curl or wget" /\
  PyStr.contains (emsg url) url.
Proof.
  unfold emsg.
  repeat split.
  - exists ("Unable to access the URL " ++ url ++ "." ++ newline ++ "Please install "),
      " or wget (and if you continue to see this message, contact the CXC HelpDesk).".
    simpl. rewrite !PyStrFacts.app_assoc. reflexivity.
  - exists ("Unable to access the URL " ++ url ++ "." ++ newline
             ++ "Please install curl or "),
      " (and if you continue to see this message, contact the CXC HelpDesk).".
    simpl. rewrite !PyStrFacts.app_assoc. reflexivity.
  - exists ("Unable to access the URL " ++ url ++ "." ++ newline),
      " (and if you continue to see this message, contact the CXC HelpDesk).".
    simpl. rewrite !PyStrFacts.app_assoc. reflexivity.
  - exists "Unable to access the URL ",
      ("." ++ newline ++ "Please install curl or wget (and if you continue to see this message, contact the CXC HelpDesk).").
    simpl. rewrite !PyStrFacts.app_assoc. reflexivity.
Qed.

(** C3: when running curl raises [FileNotFoundError], [manual_download]
    runs wget with the same url, and when wget succeeds it returns the
    output wget wrote, wrapped in a [BytesIO]. *)
Theorem manual_download_tries_wget_when_curl_is_missing
        (E : env) (url : string) (w w1 w2 : World E) (exc1 : exn) (out : bytes) :
  check_output_impl E ["curl"; "--silent"; "-L"; url] w = (w1, Err exc1) ->
  isinstance exc1 FileNotFoundError = true ->
  check_output_impl E ["wget"; "--quiet"; "-O-"; url] w1 = (w2, Ok out) ->
  outcome_of (manual_download url w) = Ok (BytesIO out) /\
  world_of (manual_download url w) = w2 /\
  check_output_calls (trace_of (manual_download url w)) =
    [["curl"; "--silent"; "-L"; url]; ["wget"; "--quiet"; "-O-"; url]].
Proof.
  intros Hcurl Hmissing Hwget.
  rewrite (manual_download_wget_ok url w w1 w2 exc1 out Hcurl Hmissing Hwget).
  now repeat split.
Qed.

Lemma manual_download_tries_wget_when_curl_is_missing_witness :
  let E := scripted (always_raises no_https_handler)
                    (Err (not_found "curl")) (Ok payload) in
  outcome_of (manual_download (E:=E) cxc 0%nat) = Ok (BytesIO payload) /\
  world_of (manual_download (E:=E) cxc 0%nat) = 2%nat /\
  check_output_calls (trace_of (manual_download (E:=E) cxc 0%nat)) =
    [["curl"; "--silent"; "-L"; cxc]; ["wget"; "--quiet"; "-O-"; cxc]].
Proof.
  intros E.
  apply (manual_download_tries_wget_when_curl_is_missing
           E cxc 0%nat 1%nat 2%nat (not_found "curl") payload);
    reflexivity.
Defined.

(** C4: when running curl and then wget both raise [FileNotFoundError],
    [manual_download] raises one [RuntimeError] whose message names curl and
    wget and asks to install one of them; it is neither of the two
    [FileNotFoundError]s and no [except FileNotFoundError] would catch it. *)
Theorem manual_download_reports_missing_programs
        (E : env) (url : string) (w w1 w2 : World E) (exc1 exc2 : exn) :
  check_output_impl E ["curl"; "--silent"; "-L"; url] w = (w1, Err exc1) ->
  isinstance exc1 FileNotFoundError = true ->
  check_output_impl E ["wget"; "--quiet"; "-O-"; url] w1 = (w2, Err exc2) ->
  isinstance exc2 FileNotFoundError = true ->
  exists msg,
    outcome_of (manual_download url w) = Err (Exn RuntimeError (VStr msg)) /\
    PyStr.contains msg "curl" /\
    PyStr.contains msg "wget" /\
    PyStr.contains msg "Please install curl or wget" /\
    Exn RuntimeError (VStr msg) <> exc1 /\
    Exn RuntimeError (VStr msg) <> exc2 /\
    isinstance (Exn RuntimeError (VStr msg)) FileNotFoundError = false.
Proof.
  intros Hcurl Hmissing1 Hwget Hmissing2.
  exists (emsg url).
  rewrite (manual_download_nothing_installed
             url w w1 w2 exc1 exc2 Hcurl Hmissing1 Hwget Hmissing2).
  destruct (emsg_names_programs url) as (Hc & Hw & Hi & _).
  repeat split; try assumption.
  - intros <-. discriminate Hmissing1.
  - intros <-. discriminate Hmissing2.
Qed.

Lemma manual_download_reports_missing_programs_witness :
  let E := scripted (always_raises no_https_handler)
                    (Err (not_found "curl")) (Err (not_found "wget")) in
  exists msg,
    outcome_of (manual_download (E:=E) cxc 0%nat) =
      Err (Exn RuntimeError (VStr msg)) /\
    PyStr.contains msg "curl" /\
    PyStr.contains msg "wget" /\
    PyStr.contains msg "Please install curl or wget" /\
    Exn RuntimeError (VStr msg) <> not_found "curl" /\
    Exn RuntimeError (VStr msg) <> not_found "wget" /\
    isinstance (Exn RuntimeError (VStr msg)) FileNotFoundError = false.
Proof.
  intros E.
  apply (manual_download_reports_missing_programs
           E cxc 0%nat 1%nat 2%nat (not_found "curl") (not_found "wget"));
    reflexivity.
Defined.

(** C5: when a program is found but running it fails (the exception is not
    a [FileNotFoundError]), [manual_download] raises that exception as it
    is and goes no further: a failing curl is not followed by wget, and a
    failing wget is not turned into the [RuntimeError]. *)
Theorem manual_download_propagates_program_failures
        (E : env) (url : string) (w w1 : World E) (e : exn) :
  isinstance e FileNotFoundError = false ->
  (check_output_impl E ["curl"; "--silent"; "-L"; url] w = (w1, Err e) ->
   outcome_of (manual_download url w) = Err e /\
   world_of (manual_download url w) = w1 /\
   check_output_calls (trace_of (manual_download url w)) =
     [["curl"; "--silent"; "-L"; url]]) /\
  (forall (w0 : World E) (exc1 : exn),
      check_output_impl E ["curl"; "--silent"; "-L"; url] w0 = (w, Err exc1) ->
      isinstance exc1 FileNotFoundError = true ->
      check_output_impl E ["wget"; "--quiet"; "-O-"; url] w = (w1, Err e) ->
      outcome_of (manual_download url w0) = Err e /\
      world_of (manual_download url w0) = w1 /\
      check_output_calls (trace_of (manual_download url w0)) =
        [["curl"; "--silent"; "-L"; url]; ["wget"; "--quiet"; "-O-"; url]]).
Proof.
  intros Hfound. split.
  - intros Hcurl.
    rewrite (manual_download_curl_fails url w w1 e Hcurl Hfound).
    now repeat split.
  - intros w0 exc1 Hcurl Hmissing Hwget.
    rewrite (manual_download_wget_fails
               url w0 w w1 exc1 e Hcurl Hmissing Hwget Hfound).
    now repeat split.
Qed.

Lemma manual_download_propagates_program_failures_witness :
  let Ecurl := scripted (always_raises no_https_handler)
                        (Err (exit_status "curl" "6")) (Ok payload) in
  let Ewget := scripted (always_raises no_https_handler)
                        (Err (not_found "curl")) (Err (exit_status "wget" "4")) in
  (outcome_of (manual_download (E:=Ecurl) cxc 0%nat) = Err (exit_status "curl" "6") /\
   world_of (manual_download (E:=Ecurl) cxc 0%nat) = 1%nat /\
   check_output_calls (trace_of (manual_download (E:=Ecurl) cxc 0%nat)) =
     [["curl"; "--silent"; "-L"; cxc]]) /\
  (outcome_of (manual_download (E:=Ewget) cxc 0%nat) = Err (exit_status "wget" "4") /\
   world_of (manual_download (E:=Ewget) cxc 0%nat) = 2%nat /\
   check_output_calls (trace_of (manual_download (E:=Ewget) cxc 0%nat)) =
     [["curl"; "--silent"; "-L"; cxc]; ["wget"; "--quiet"; "-O-"; cxc]]).
Proof.
  intros Ecurl Ewget. split.
  - apply (manual_download_propagates_program_failures
             Ecurl cxc 0%nat 1%nat (exit_status "curl" "6")); reflexivity.
  - apply (manual_download_propagates_program_failures
             Ewget cxc 1%nat 2%nat (exit_status "wget" "4") eq_refl
             : _ /\ _) with (w0 := 0%nat) (exc1 := not_found "curl");
      reflexivity.
Defined.

(** ** What [retrieve_url] hands to its collaborators *)

Lemma urlopen_calls_app (tr1 tr2 : list event) :
  urlopen_calls (tr1 ++ tr2) = (urlopen_calls tr1 ++ urlopen_calls tr2)%list.
Proof.
  induction tr1 as [|[lvl tmpl args|u t|args] tr1 IH]; simpl; congruence.
Qed.

(** Every run of [retrieve_url] makes exactly one [urlopen] call. *)
Lemma retrieve_url_urlopen_calls
      (E : env) (url : string) (timeout : value) (w : World E) :
  urlopen_calls (trace_of (retrieve_url url timeout w)) =
  [(url, timeout_kwarg timeout)].
Proof.
  destruct (urlopen_impl E url (timeout_kwarg timeout) w) as [w1 [r|e]] eqn:H.
  - now rewrite (retrieve_url_native_success url timeout w w1 r H).
  - destruct (isinstance e URLError) eqn:Hi.
    + rewrite (retrieve_url_caught url timeout w w1 e H Hi).
      destruct (no_ssl_support (py_str (reason e))); [|reflexivity].
      pose proof (manual_download_no_urlopen url w1) as Hmd.
      destruct (manual_download url w1) as [[tr w2] r]. unfold trace_of in *.
      simpl in *. now rewrite Hmd.
    + now rewrite (retrieve_url_uncaught url timeout w w1 e H Hi).
Qed.

(** C6: a call [retrieve_url(url, timeout)] with [timeout] not [None] makes
    its one [urlopen] call with [timeout=timeout]; a call without a timeout
    (the default, [None]) makes it with the url alone, so with no limit of
    its own on the wait. *)
Theorem retrieve_url_passes_timeout_to_urlopen
        (E : env) (url : string) (timeout : value) (w : World E) :
  (timeout <> VNone ->
   urlopen_calls (trace_of (retrieve_url url timeout w)) =
     [(url, Some timeout)]) /\
  urlopen_calls (trace_of (retrieve_url url VNone w)) = [(url, None)].
Proof.
  split.
  - intros Hsome. rewrite retrieve_url_urlopen_calls.
    destruct timeout; [contradiction| | |]; reflexivity.
  - apply retrieve_url_urlopen_calls.
Qed.

Lemma retrieve_url_passes_timeout_to_urlopen_witness :
  let E := scripted (serves 7) (Ok payload) (Ok payload) in
  urlopen_calls (trace_of (retrieve_url (E:=E) cxc (VObj "float" "2.5") 0%nat)) =
    [(cxc, Some (VObj "float" "2.5"))] /\
  urlopen_calls (trace_of (retrieve_url (E:=E) cxc VNone 0%nat)) = [(cxc, None)].
Proof.
  intros E. split.
  - apply (retrieve_url_passes_timeout_to_urlopen E cxc (VObj "float" "2.5") 0%nat).
    discriminate.
  - apply (retrieve_url_passes_timeout_to_urlopen E cxc VNone 0%nat).
Defined.

(** C8: whenever [retrieve_url] falls back, the manual part of the run is
    [manual_download(url)] on the url it was called with: two calls with any
    two timeouts whose failed fetches leave the same world continue with the
    same run of [manual_download], and the programs it runs get the url and
    fixed flags, nothing made from the timeout. *)
Theorem fallback_receives_the_url_only
        (E : env) (url : string) (t1 t2 : value)
        (wa wb w1 : World E) (ea eb : exn) :
  native_fetch_raises E url t1 wa w1 ea ->
  isinstance ea URLError = true ->
  no_ssl_support (py_str (reason ea)) = true ->
  native_fetch_raises E url t2 wb w1 eb ->
  isinstance eb URLError = true ->
  no_ssl_support (py_str (reason eb)) = true ->
  let md := manual_download url w1 in
  retrieve_url url t1 wa =
    ((failed_fetch_trace url t1 ea ++ trace_of md)%list,
     world_of md, outcome_of md) /\
  retrieve_url url t2 wb =
    ((failed_fetch_trace url t2 eb ++ trace_of md)%list,
     world_of md, outcome_of md) /\
  Forall (fun args => args = ["curl"; "--silent"; "-L"; url] \/
                      args = ["wget"; "--quiet"; "-O-"; url])
         (check_output_calls (trace_of md)).
Proof.
  intros Ha Hia Hda Hb Hib Hdb md.
  rewrite (retrieve_url_caught url t1 wa w1 ea Ha Hia), Hda.
  rewrite (retrieve_url_caught url t2 wb w1 eb Hb Hib), Hdb.
  pose proof (manual_download_commands url w1) as Hcmd.
  subst md. destruct (manual_download url w1) as [[tr w2] r].
  now repeat split.
Qed.

Lemma fallback_receives_the_url_only_witness :
  let E := scripted (always_raises no_https_handler)
                    (Err (not_found "curl")) (Ok payload) in
  let md := manual_download (E:=E) cxc 1%nat in
  retrieve_url (E:=E) cxc VNone 0%nat =
    ((failed_fetch_trace cxc VNone no_https_handler ++ trace_of md)%list,
     world_of md, outcome_of md) /\
  retrieve_url (E:=E) cxc (VInt 30) 0%nat =
    ((failed_fetch_trace cxc (VInt 30) no_https_handler ++ trace_of md)%list,
     world_of md, outcome_of md) /\
  Forall (fun args => args = ["curl"; "--silent"; "-L"; cxc] \/
                      args = ["wget"; "--quiet"; "-O-"; cxc])
         (check_output_calls (trace_of md)).
Proof.
  intros E.
  apply (fallback_receives_the_url_only
           E cxc VNone (VInt 30) 0%nat 0%nat 1%nat
           no_https_handler no_https_handler);
    reflexivity.
Defined.

(** C9: the decision to fall back is taken on [str(ue.reason)]: a reason
    that is an object, not a [str], triggers the fall back when its string
    form contains a trigger; and the match is case-sensitive: a reason whose
    text is a trigger with some letters in the other case does not trigger
    it, and the error is raised again. *)
Theorem fallback_decision_reads_str_of_reason
        (E : env) (url : string) (timeout : value) (w w1 : World E) (ue : exn) :
  native_fetch_raises E url timeout w w1 ue ->
  isinstance ue URLError = true ->
  (forall class_name text,
      reason ue = VObj class_name text ->
      PyStr.contains text "unknown url type: https" \/
      PyStr.contains text "CERTIFICATE_VERIFY_FAILED" ->
      retrieve_url url timeout w =
        ((failed_fetch_trace url timeout ue
            ++ trace_of (manual_download url w1))%list,
         world_of (manual_download url w1),
         outcome_of (manual_download url w1))) /\
  (PyStr.differs_only_in_case (py_str (reason ue)) "unknown url type: https" \/
   PyStr.differs_only_in_case (py_str (reason ue)) "CERTIFICATE_VERIFY_FAILED" ->
   retrieve_url url timeout w = (failed_fetch_trace url timeout ue, w1, Err ue)).
Proof.
  intros Hfetch Hinst.
  rewrite (retrieve_url_caught url timeout w w1 ue Hfetch Hinst).
  split.
  - intros class_name text Hobj Htext.
    rewrite Hobj. simpl py_str.
    apply no_ssl_support_true in Htext. rewrite Htext.
    now destruct (manual_download url w1) as [[tr w2] r].
  - intros Hcase. now rewrite (case_variant_no_ssl_support _ Hcase).
Qed.

Lemma fallback_decision_reads_str_of_reason_witness :
  let Eobj := scripted (always_raises bad_certificate) (Ok payload) (Ok payload) in
  let Elow := scripted (always_raises lower_case_certificate)
                       (Ok payload) (Ok payload) in
  outcome_of (retrieve_url (E:=Eobj) cxc VNone 0%nat) = Ok (BytesIO payload) /\
  retrieve_url (E:=Elow) cxc VNone 0%nat =
    (failed_fetch_trace cxc VNone lower_case_certificate, 1%nat,
     Err lower_case_certificate).
Proof.
  intros Eobj Elow. split.
  - destruct (fallback_decision_reads_str_of_reason
                Eobj cxc VNone 0%nat 1%nat bad_certificate eq_refl eq_refl)
      as [Hobj _].
    rewrite (Hobj "ssl.SSLCertVerificationError"
                  "[SSL: CERTIFICATE_VERIFY_FAILED] certificate verify failed (_ssl.c:719)"
                  eq_refl).
    + reflexivity.
    + right. exists "[SSL: ", "] certificate verify failed (_ssl.c:719)".
      reflexivity.
  - apply (fallback_decision_reads_str_of_reason
             Elow cxc VNone 0%nat 1%nat lower_case_certificate eq_refl eq_refl).
    right. split; [reflexivity | discriminate].
Defined.

(** C10: the [except] clause names [URLError] only: an exception of the
    native fetch that is not an instance of [URLError] escapes
    [retrieve_url] right after the [urlopen] call, whatever its text;
    [manual_download] is not entered and no external program is run. *)
Theorem retrieve_url_catches_URLError_only
        (E : env) (url : string) (timeout : value) (w w1 : World E) (e : exn) :
  native_fetch_raises E url timeout w w1 e ->
  isinstance e URLError = false ->
  outcome_of (retrieve_url url timeout w) = Err e /\
  world_of (retrieve_url url timeout w) = w1 /\
  trace_of (retrieve_url url timeout w) =
    [ EvLog 3 "Retrieving URL: {} timeout={}" [AStr url; AVal timeout];
      EvUrlopen url (timeout_kwarg timeout) ] /\
  existsb enters_manual_download (trace_of (retrieve_url url timeout w)) = false /\
  check_output_calls (trace_of (retrieve_url url timeout w)) = [].
Proof.
  intros Hfetch Hother.
  rewrite (retrieve_url_uncaught url timeout w w1 e Hfetch Hother).
  now repeat split.
Qed.

Lemma retrieve_url_catches_URLError_only_witness :
  let E := scripted (always_raises odd_value_error) (Ok payload) (Ok payload) in
  no_ssl_support (py_str (reason odd_value_error)) = true /\
  outcome_of (retrieve_url (E:=E) cxc VNone 0%nat) = Err odd_value_error /\
  check_output_calls (trace_of (retrieve_url (E:=E) cxc VNone 0%nat)) = [].
Proof.
  intros E. split; [reflexivity|].
  destruct (retrieve_url_catches_URLError_only
              E cxc VNone 0%nat 1%nat odd_value_error eq_refl eq_refl)
    as (Hout & _ & _ & _ & Hcalls).
  split; assumption.
Defined.

(** ** What is handed back *)

(** On the manual path the response is a [BytesIO] over the whole output
    of the program that ran. *)
Lemma manual_download_returns_buffer
      (E : env) (url : string) (w : World E) (r : response) :
  outcome_of (manual_download url w) = Ok r -> in_memory r = true.
Proof.
  destruct (manual_download_cases url w) as (tail & w' & o & -> & _ & Hbuf).
  intros Hr. destruct (Hbuf r Hr) as [out ->]. reflexivity.
Qed.

(** C7 fails on the native path: a fetch of a plain http url that succeeds
    hands back the object [urlopen] produced, a reader over connection 7
    whose body has not been read, where the docstring promises a buffer. *)
Theorem retrieve_url_native_response_is_not_buffered :
  let E := scripted (serves 7) (Ok payload) (Ok payload) in
  outcome_of (retrieve_url (E:=E) "http://cxc.cfa.harvard.edu/" VNone 0%nat) =
    Ok (HTTPResponse 7) /\
  in_memory (HTTPResponse 7) = false /\
  check_output_calls
    (trace_of (retrieve_url (E:=E) "http://cxc.cfa.harvard.edu/" VNone 0%nat)) = [].
Proof.
  intros E.
  rewrite (retrieve_url_native_success
             (E:=E) "http://cxc.cfa.harvard.edu/" VNone 0%nat 1%nat
             (HTTPResponse 7) eq_refl).
  now repeat split.
Qed.


(** ** Every run has one of the shapes *)

Lemma manual_download_has_shape (E : env) (url : string) (w : World E) :
  manual_download_run url w (manual_download url w).
Proof.
  destruct (check_output_impl E ["curl"; "--silent"; "-L"; url] w)
    as [w1 [out|exc1]] eqn:Hcurl.
  - rewrite (manual_download_curl_ok url w w1 out Hcurl).
    now apply CurlWorked.
  - destruct (isinstance exc1 FileNotFoundError) eqn:Hmissing.
    + destruct (check_output_impl E ["wget"; "--quiet"; "-O-"; url] w1)
        as [w2 [out|exc2]] eqn:Hwget.
      * rewrite (manual_download_wget_ok url w w1 w2 exc1 out
                   Hcurl Hmissing Hwget).
        exact (WgetWorked url w w1 w2 exc1 out Hcurl Hmissing Hwget).
      * destruct (isinstance exc2 FileNotFoundError) eqn:Hmissing2.
        -- rewrite (manual_download_nothing_installed url w w1 w2 exc1 exc2
                      Hcurl Hmissing Hwget Hmissing2).
           exact (NothingInstalled url w w1 w2 exc1 exc2 Hcurl Hmissing Hwget Hmissing2).
        -- rewrite (manual_download_wget_fails url w w1 w2 exc1 exc2
                      Hcurl Hmissing Hwget Hmissing2).
           exact (WgetFailed url w w1 w2 exc1 exc2 Hcurl Hmissing Hwget Hmissing2).
    + rewrite (manual_download_curl_fails url w w1 exc1 Hcurl Hmissing).
      now apply CurlFailed.
Qed.

Lemma retrieve_url_has_shape
      (E : env) (url : string) (timeout : value) (w : World E) :
  retrieve_url_run url timeout w (retrieve_url url timeout w).
Proof.
  destruct (urlopen_impl E url (timeout_kwarg timeout) w) as [w1 [r|e]] eqn:H.
  - rewrite (retrieve_url_native_success url timeout w w1 r H).
    now apply NativeWorked.
  - destruct (isinstance e URLError) eqn:Hi.
    + rewrite (retrieve_url_caught url timeout w w1 e H Hi).
      destruct (no_ssl_support (py_str (reason e))) eqn:Hd.
      * pose proof (manual_download_has_shape E url w1) as Hmd.
        destruct (manual_download url w1) as [[tr w2] r] eqn:Hrun.
        exact (FellBack url timeout w w1 w2 e tr r H Hi Hd Hrun Hmd).
      * exact (Reraised url timeout w w1 e H Hi Hd).
    + rewrite (retrieve_url_uncaught url timeout w w1 e H Hi).
      exact (NotCaught url timeout w w1 e H Hi).
Qed.

Lemma strings_eqb_refl (l : list string) : strings_eqb l l = true.
Proof.
  induction l as [|s l IH]; simpl; [reflexivity|].
  now rewrite String.eqb_refl, IH.
Qed.

(** ** The order of the programs *)

(** X1: curl comes first, and when it succeeds its output is the response:
    wget is not run. *)
Theorem manual_download_prefers_curl
        (E : env) (url : string) (w w1 : World E) (out : bytes) :
  check_output_impl E ["curl"; "--silent"; "-L"; url] w = (w1, Ok out) ->
  outcome_of (manual_download url w) = Ok (BytesIO out) /\
  world_of (manual_download url w) = w1 /\
  trace_of (manual_download url w) = curl_attempt url /\
  check_output_calls (trace_of (manual_download url w)) =
    [["curl"; "--silent"; "-L"; url]].
Proof.
  intros Hcurl.
  rewrite (manual_download_curl_ok url w w1 out Hcurl). now repeat split.
Qed.

Lemma manual_download_prefers_curl_witness :
  outcome_of (manual_download (E:=no_ssl_with_curl) cxc 0%nat) =
    Ok (BytesIO payload) /\
  world_of (manual_download (E:=no_ssl_with_curl) cxc 0%nat) = 1%nat /\
  trace_of (manual_download (E:=no_ssl_with_curl) cxc 0%nat) =
    curl_attempt cxc /\
  check_output_calls (trace_of (manual_download (E:=no_ssl_with_curl) cxc 0%nat)) =
    [["curl"; "--silent"; "-L"; cxc]].
Proof.
  apply (manual_download_prefers_curl no_ssl_with_curl cxc 0%nat 1%nat payload).
  reflexivity.
Defined.

(** X9: [manual_download] runs curl alone, or curl and then wget, never
    more; and wget is run only when running curl raised
    [FileNotFoundError]. *)
Theorem wget_runs_only_when_curl_is_missing
        (E : env) (url : string) (w : World E) :
  (check_output_calls (trace_of (manual_download url w)) =
     [["curl"; "--silent"; "-L"; url]] \/
   check_output_calls (trace_of (manual_download url w)) =
     [["curl"; "--silent"; "-L"; url]; ["wget"; "--quiet"; "-O-"; url]]) /\
  (In ["wget"; "--quiet"; "-O-"; url]
      (check_output_calls (trace_of (manual_download url w))) ->
   exists w1 exc1,
     check_output_impl E ["curl"; "--silent"; "-L"; url] w = (w1, Err exc1) /\
     isinstance exc1 FileNotFoundError = true).
Proof.
  destruct (manual_download_has_shape E url w)
    as [w1 out Hc | w1 e Hc He | w1 w2 exc1 out Hc H1 Hw
        | w1 w2 exc1 e Hc H1 Hw He | w1 w2 exc1 exc2 Hc H1 Hw H2];
    unfold trace_of; simpl; (split; [auto|]).
  - intros [[=] | []].
  - intros [[=] | []].
  - intros _. now exists w1, exc1.
  - intros _. now exists w1, exc1.
  - intros _. now exists w1, exc1.
Qed.

Lemma wget_runs_only_when_curl_is_missing_witness :
  exists w1 exc1,
    check_output_impl no_ssl_with_wget ["curl"; "--silent"; "-L"; cxc] 0%nat =
      (w1, Err exc1) /\
    isinstance exc1 FileNotFoundError = true.
Proof.
  apply (wget_runs_only_when_curl_is_missing no_ssl_with_wget cxc 0%nat).
  right. left. reflexivity.
Defined.

(** ** What [manual_download] gives and raises *)

(** X2: an exception that escapes [manual_download] is never a
    [FileNotFoundError]: it is the [RuntimeError] of the module, raised
    after both programs were missing, or the exception one of its own
    [check_output] calls raised. *)
Theorem manual_download_failures
        (E : env) (url : string) (w : World E) (e : exn) :
  outcome_of (manual_download url w) = Err e ->
  isinstance e FileNotFoundError = false /\
  (e = Exn RuntimeError (VStr (emsg url)) /\
   check_output_calls (trace_of (manual_download url w)) =
     [["curl"; "--silent"; "-L"; url]; ["wget"; "--quiet"; "-O-"; url]]
   \/
   exists args w0,
     In args (check_output_calls (trace_of (manual_download url w))) /\
     check_output_impl E args w0 = (world_of (manual_download url w), Err e)).
Proof.
  destruct (manual_download_has_shape E url w)
    as [w1 out Hc | w1 e' Hc He | w1 w2 exc1 out Hc H1 Hw
        | w1 w2 exc1 e' Hc H1 Hw He | w1 w2 exc1 exc2 Hc H1 Hw H2];
    unfold outcome_of, trace_of, world_of; simpl; intros [= <-].
  - split; [exact He|]. right.
    exists ["curl"; "--silent"; "-L"; url], w. split; [now left | exact Hc].
  - split; [exact He|]. right.
    exists ["wget"; "--quiet"; "-O-"; url], w1.
    split; [right; now left | exact Hw].
  - split; [reflexivity|]. left. now split.
Qed.

Lemma manual_download_failures_witness :
  isinstance (exit_status "curl" "6") FileNotFoundError = false /\
  (exit_status "curl" "6" = Exn RuntimeError (VStr (emsg cxc)) /\
   check_output_calls (trace_of (manual_download (E:=no_ssl_curl_exits) cxc 0%nat)) =
     [["curl"; "--silent"; "-L"; cxc]; ["wget"; "--quiet"; "-O-"; cxc]]
   \/
   exists args w0,
     In args (check_output_calls
                (trace_of (manual_download (E:=no_ssl_curl_exits) cxc 0%nat))) /\
     check_output_impl no_ssl_curl_exits args w0 =
       (world_of (manual_download (E:=no_ssl_curl_exits) cxc 0%nat),
        Err (exit_status "curl" "6"))).
Proof.
  apply (manual_download_failures no_ssl_curl_exits cxc 0%nat
                                  (exit_status "curl" "6")).
  reflexivity.
Defined.

(** X3: a response [manual_download] returns is always a [BytesIO] whose
    buffer is, byte for byte, what the last program it ran wrote; the world
    is the one that run left. *)
Theorem manual_download_returns_program_output
        (E : env) (url : string) (w : World E) (r : response) :
  outcome_of (manual_download url w) = Ok r ->
  exists out args w0 before,
    r = BytesIO out /\
    check_output_calls (trace_of (manual_download url w)) =
      (before ++ [args])%list /\
    check_output_impl E args w0 = (world_of (manual_download url w), Ok out).
Proof.
  destruct (manual_download_has_shape E url w)
    as [w1 out Hc | w1 e' Hc He | w1 w2 exc1 out Hc H1 Hw
        | w1 w2 exc1 e' Hc H1 Hw He | w1 w2 exc1 exc2 Hc H1 Hw H2];
    unfold outcome_of, trace_of, world_of; simpl; intros [= <-].
  - exists out, ["curl"; "--silent"; "-L"; url], w, []. now repeat split.
  - exists out, ["wget"; "--quiet"; "-O-"; url], w1,
      [["curl"; "--silent"; "-L"; url]].
    now repeat split.
Qed.

Lemma manual_download_returns_program_output_witness :
  exists out args w0 before,
    BytesIO payload = BytesIO out /\
    check_output_calls (trace_of (manual_download (E:=no_ssl_with_wget) cxc 0%nat)) =
      (before ++ [args])%list /\
    check_output_impl no_ssl_with_wget args w0 =
      (world_of (manual_download (E:=no_ssl_with_wget) cxc 0%nat), Ok out).
Proof.
  apply (manual_download_returns_program_output
           no_ssl_with_wget cxc 0%nat (BytesIO payload)).
  reflexivity.
Defined.

(** ** The log *)

(** X4: every external command is announced before it runs: in every run
    of [manual_download] and of [retrieve_url], each [check_output] call
    comes right after the verbosity-4 logger call "About to execute: {}"
    made with that same argument list. *)
Theorem commands_are_announced
        (E : env) (url : string) (timeout : value) (w : World E) :
  commands_announced (trace_of (manual_download url w)) = true /\
  commands_announced (trace_of (retrieve_url url timeout w)) = true.
Proof.
  split.
  - destruct (manual_download_has_shape E url w);
      unfold trace_of, commands_announced; simpl;
      now rewrite ?String.eqb_refl.
  - destruct (retrieve_url_has_shape E url timeout w)
      as [w1 r H | w1 e H Hi | w1 ue H Hi Hd | w1 w2 ue tr r H Hi Hd Hrun Hmd];
      try reflexivity.
    inversion Hmd; subst; unfold trace_of, commands_announced; simpl;
      now rewrite ?String.eqb_refl.
Qed.

(** The check is a real one: a command that runs unannounced, or after the
    announcement of another command, is rejected. *)
Example unannounced_commands_are_rejected :
  commands_announced [EvCheckOutput ["curl"; "--silent"; "-L"; cxc]] = false /\
  commands_announced
    [EvLog 4 "About to execute: {}" [AList ["curl"; "--silent"; "-L"; cxc]];
     EvCheckOutput ["wget"; "--quiet"; "-O-"; cxc]] = false.
Proof. split; reflexivity. Qed.

(** ** [retrieve_url] from end to end *)

(** X6: when the native fetch succeeds, [retrieve_url] returns the very
    object [urlopen] returned and leaves the world as [urlopen] left it;
    [manual_download] is not entered and no external program is run. *)
Theorem retrieve_url_returns_what_urlopen_returned
        (E : env) (url : string) (timeout : value) (w w1 : World E)
        (r : response) :
  urlopen_impl E url (timeout_kwarg timeout) w = (w1, Ok r) ->
  outcome_of (retrieve_url url timeout w) = Ok r /\
  world_of (retrieve_url url timeout w) = w1 /\
  existsb enters_manual_download (trace_of (retrieve_url url timeout w)) = false /\
  check_output_calls (trace_of (retrieve_url url timeout w)) = [].
Proof.
  intros Hfetch.
  rewrite (retrieve_url_native_success url timeout w w1 r Hfetch).
  now repeat split.
Qed.

Lemma retrieve_url_returns_what_urlopen_returned_witness :
  outcome_of (retrieve_url (E:=healthy) cxc (VInt 30) 0%nat) =
    Ok (HTTPResponse 7) /\
  world_of (retrieve_url (E:=healthy) cxc (VInt 30) 0%nat) = 1%nat /\
  existsb enters_manual_download
          (trace_of (retrieve_url (E:=healthy) cxc (VInt 30) 0%nat)) = false /\
  check_output_calls (trace_of (retrieve_url (E:=healthy) cxc (VInt 30) 0%nat)) = [].
Proof.
  apply (retrieve_url_returns_what_urlopen_returned
           healthy cxc (VInt 30) 0%nat 1%nat (HTTPResponse 7)).
  reflexivity.
Defined.

(** X5: [retrieve_url] runs an external program only when the native
    fetch raised an [URLError] whose reason text contains one of the two
    triggers. *)
Theorem programs_run_only_without_ssl
        (E : env) (url : string) (timeout : value) (w : World E) :
  check_output_calls (trace_of (retrieve_url url timeout w)) <> [] ->
  exists w1 ue,
    native_fetch_raises E url timeout w w1 ue /\
    isinstance ue URLError = true /\
    (PyStr.contains (py_str (reason ue)) "unknown url type: https" \/
     PyStr.contains (py_str (reason ue)) "CERTIFICATE_VERIFY_FAILED").
Proof.
  destruct (retrieve_url_has_shape E url timeout w)
    as [w1 r H | w1 e H Hi | w1 ue H Hi Hd | w1 w2 ue tr r H Hi Hd Hrun Hmd];
    unfold trace_of; simpl; intros Hran; try contradiction.
  exists w1, ue. repeat split; [exact H | exact Hi |].
  now apply no_ssl_support_true.
Qed.

Lemma programs_run_only_without_ssl_witness :
  exists w1 ue,
    native_fetch_raises no_ssl_with_curl cxc VNone 0%nat w1 ue /\
    isinstance ue URLError = true /\
    (PyStr.contains (py_str (reason ue)) "unknown url type: https" \/
     PyStr.contains (py_str (reason ue)) "CERTIFICATE_VERIFY_FAILED").
Proof.
  apply (programs_run_only_without_ssl no_ssl_with_curl cxc VNone 0%nat).
  discriminate.
Defined.

(** X7: without SSL support but with a working curl, [retrieve_url]
    returns curl's output in a [BytesIO]: one [urlopen] call, then one run
    of curl, and wget is not run. *)
Theorem retrieve_url_downloads_with_curl
        (E : env) (url : string) (timeout : value) (w w1 w2 : World E)
        (ue : exn) (out : bytes) :
  native_fetch_raises E url timeout w w1 ue ->
  isinstance ue URLError = true ->
  PyStr.contains (py_str (reason ue)) "unknown url type: https" \/
  PyStr.contains (py_str (reason ue)) "CERTIFICATE_VERIFY_FAILED" ->
  check_output_impl E ["curl"; "--silent"; "-L"; url] w1 = (w2, Ok out) ->
  retrieve_url url timeout w =
    ((failed_fetch_trace url timeout ue ++ curl_attempt url)%list,
     w2, Ok (BytesIO out)) /\
  urlopen_calls (trace_of (retrieve_url url timeout w)) =
    [(url, timeout_kwarg timeout)] /\
  check_output_calls (trace_of (retrieve_url url timeout w)) =
    [["curl"; "--silent"; "-L"; url]].
Proof.
  intros Hfetch Hinst Hreason Hcurl.
  apply no_ssl_support_true in Hreason.
  rewrite (retrieve_url_caught url timeout w w1 ue Hfetch Hinst), Hreason.
  rewrite (manual_download_curl_ok url w1 w2 out Hcurl).
  now repeat split.
Qed.

Lemma retrieve_url_downloads_with_curl_witness :
  retrieve_url (E:=no_ssl_with_curl) cxc (VInt 30) 0%nat =
    ((failed_fetch_trace cxc (VInt 30) no_https_handler ++ curl_attempt cxc)%list,
     2%nat, Ok (BytesIO payload)) /\
  urlopen_calls (trace_of (retrieve_url (E:=no_ssl_with_curl) cxc (VInt 30) 0%nat)) =
    [(cxc, timeout_kwarg (VInt 30))] /\
  check_output_calls
    (trace_of (retrieve_url (E:=no_ssl_with_curl) cxc (VInt 30) 0%nat)) =
    [["curl"; "--silent"; "-L"; cxc]].
Proof.
  apply (retrieve_url_downloads_with_curl
           no_ssl_with_curl cxc (VInt 30) 0%nat 1%nat 2%nat
           no_https_handler payload).
  - reflexivity.
  - reflexivity.
  - left. exists "", "". reflexivity.
  - reflexivity.
Defined.

(** X8: without SSL support and with neither program installed, the
    caller of [retrieve_url] gets the [RuntimeError] of [manual_download],
    not the [URLError] of the native fetch; its message holds the url that
    was asked for and the request to install curl or wget. *)
Theorem retrieve_url_reports_missing_programs
        (E : env) (url : string) (timeout : value) (w w1 w2 w3 : World E)
        (ue exc1 exc2 : exn) :
  native_fetch_raises E url timeout w w1 ue ->
  isinstance ue URLError = true ->
  PyStr.contains (py_str (reason ue)) "unknown url type: https" \/
  PyStr.contains (py_str (reason ue)) "CERTIFICATE_VERIFY_FAILED" ->
  check_output_impl E ["curl"; "--silent"; "-L"; url] w1 = (w2, Err exc1) ->
  isinstance exc1 FileNotFoundError = true ->
  check_output_impl E ["wget"; "--quiet"; "-O-"; url] w2 = (w3, Err exc2) ->
  isinstance exc2 FileNotFoundError = true ->
  exists msg,
    outcome_of (retrieve_url url timeout w) =
      Err (Exn RuntimeError (VStr msg)) /\
    Exn RuntimeError (VStr msg) <> ue /\
    isinstance (Exn RuntimeError (VStr msg)) URLError = false /\
    PyStr.contains msg url /\
    PyStr.contains msg "Please install curl or wget" /\
    world_of (retrieve_url url timeout w) = w3.
Proof.
  intros Hfetch Hinst Hreason Hcurl Hmissing1 Hwget Hmissing2.
  apply no_ssl_support_true in Hreason.
  exists (emsg url).
  rewrite (retrieve_url_caught url timeout w w1 ue Hfetch Hinst), Hreason.
  rewrite (manual_download_nothing_installed
             url w1 w2 w3 exc1 exc2 Hcurl Hmissing1 Hwget Hmissing2).
  destruct (emsg_names_programs url) as (_ & _ & Hinstall & Hurl).
  repeat split; try assumption.
  intros <-. discriminate Hinst.
Qed.

Lemma retrieve_url_reports_missing_programs_witness :
  exists msg,
    outcome_of (retrieve_url (E:=no_ssl_bare) cxc VNone 0%nat) =
      Err (Exn RuntimeError (VStr msg)) /\
    Exn RuntimeError (VStr msg) <> no_https_handler /\
    isinstance (Exn RuntimeError (VStr msg)) URLError = false /\
    PyStr.contains msg cxc /\
    PyStr.contains msg "Please install curl or wget" /\
    world_of (retrieve_url (E:=no_ssl_bare) cxc VNone 0%nat) = 3%nat.
Proof.
  apply (retrieve_url_reports_missing_programs
           no_ssl_bare cxc VNone 0%nat 1%nat 2%nat 3%nat
           no_https_handler (not_found "curl") (not_found "wget")).
  - reflexivity.
  - reflexivity.
  - left. exists "", "". reflexivity.
  - reflexivity.
  - reflexivity.
  - reflexivity.
  - reflexivity.
Defined.

(** X10: an exception that escapes [retrieve_url] is either the one the
    native fetch raised (not an [URLError], or one whose reason text holds
    no trigger), with no program run, or the one [manual_download] raised
    during the fall back; in that case it is not a [FileNotFoundError]. *)
Theorem retrieve_url_failures
        (E : env) (url : string) (timeout : value) (w : World E) (e : exn) :
  outcome_of (retrieve_url url timeout w) = Err e ->
  (exists w1,
      native_fetch_raises E url timeout w w1 e /\
      world_of (retrieve_url url timeout w) = w1 /\
      check_output_calls (trace_of (retrieve_url url timeout w)) = [] /\
      (isinstance e URLError = false \/
       ~ PyStr.contains (py_str (reason e)) "unknown url type: https" /\
       ~ PyStr.contains (py_str (reason e)) "CERTIFICATE_VERIFY_FAILED"))
  \/
  (exists w1 ue,
      native_fetch_raises E url timeout w w1 ue /\
      isinstance ue URLError = true /\
      (PyStr.contains (py_str (reason ue)) "unknown url type: https" \/
       PyStr.contains (py_str (reason ue)) "CERTIFICATE_VERIFY_FAILED") /\
      outcome_of (manual_download url w1) = Err e /\
      isinstance e FileNotFoundError = false).
Proof.
  destruct (retrieve_url_has_shape E url timeout w)
    as [w1 r H | w1 e' H Hi | w1 ue H Hi Hd | w1 w2 ue tr r H Hi Hd Hrun Hmd];
    unfold outcome_of, world_of, trace_of; simpl.
  - intros [=].
  - intros [= <-]. left. exists w1. repeat split; [exact H | now left].
  - intros [= <-]. left. exists w1. repeat split; [exact H |].
    right. now apply no_ssl_support_false.
  - intros ->. right. exists w1, ue.
    repeat split; [exact H | exact Hi | now apply no_ssl_support_true | |].
    + now rewrite Hrun.
    + inversion Hmd; subst; (assumption || reflexivity).
Qed.

Lemma retrieve_url_failures_witness :
  (exists w1,
      native_fetch_raises no_ssl_curl_exits cxc VNone 0%nat w1
                          (exit_status "curl" "6") /\
      world_of (retrieve_url (E:=no_ssl_curl_exits) cxc VNone 0%nat) = w1 /\
      check_output_calls
        (trace_of (retrieve_url (E:=no_ssl_curl_exits) cxc VNone 0%nat)) = [] /\
      (isinstance (exit_status "curl" "6") URLError = false \/
       ~ PyStr.contains (py_str (reason (exit_status "curl" "6")))
           "unknown url type: https" /\
       ~ PyStr.contains (py_str (reason (exit_status "curl" "6")))
           "CERTIFICATE_VERIFY_FAILED"))
  \/
  (exists w1 ue,
      native_fetch_raises no_ssl_curl_exits cxc VNone 0%nat w1 ue /\
      isinstance ue URLError = true /\
      (PyStr.contains (py_str (reason ue)) "unknown url type: https" \/
       PyStr.contains (py_str (reason ue)) "CERTIFICATE_VERIFY_FAILED") /\
      outcome_of (manual_download (E:=no_ssl_curl_exits) cxc w1) =
        Err (exit_status "curl" "6") /\
      isinstance (exit_status "curl" "6") FileNotFoundError = false).
Proof.
  apply (retrieve_url_failures no_ssl_curl_exits cxc VNone 0%nat
                               (exit_status "curl" "6")).
  reflexivity.
Defined.

(** X11: a response [retrieve_url] returns is either the object the
    native fetch returned, with no program run, or a [BytesIO] made by
    [manual_download] after a fall back; so a response that is not held in
    memory is always the object [urlopen] returned. *)
Theorem retrieve_url_responses
        (E : env) (url : string) (timeout : value) (w : World E)
        (r : response) :
  outcome_of (retrieve_url url timeout w) = Ok r ->
  (exists w1,
      urlopen_impl E url (timeout_kwarg timeout) w = (w1, Ok r) /\
      check_output_calls (trace_of (retrieve_url url timeout w)) = [])
  \/
  (exists w1 ue,
      native_fetch_raises E url timeout w w1 ue /\
      outcome_of (manual_download url w1) = Ok r /\
      in_memory r = true /\
      check_output_calls (trace_of (retrieve_url url timeout w)) <> []).
Proof.
  destruct (retrieve_url_has_shape E url timeout w)
    as [w1 r' H | w1 e' H Hi | w1 ue H Hi Hd | w1 w2 ue tr r' H Hi Hd Hrun Hmd];
    unfold outcome_of, world_of, trace_of; simpl; try (intros [=]; fail).
  - intros [= <-]. left. now exists w1.
  - intros ->. right. exists w1, ue.
    repeat split; [exact H | now rewrite Hrun | |].
    + inversion Hmd; reflexivity.
    + inversion Hmd; subst; simpl; discriminate.
Qed.

Lemma retrieve_url_responses_witness :
  (exists w1,
      urlopen_impl no_ssl_with_wget cxc (timeout_kwarg VNone) 0%nat =
        (w1, Ok (BytesIO payload)) /\
      check_output_calls
        (trace_of (retrieve_url (E:=no_ssl_with_wget) cxc VNone 0%nat)) = [])
  \/
  (exists w1 ue,
      native_fetch_raises no_ssl_with_wget cxc VNone 0%nat w1 ue /\
      outcome_of (manual_download (E:=no_ssl_with_wget) cxc w1) =
        Ok (BytesIO payload) /\
      in_memory (BytesIO payload) = true /\
      check_output_calls
        (trace_of (retrieve_url (E:=no_ssl_with_wget) cxc VNone 0%nat)) <> []).
Proof.
  apply (retrieve_url_responses no_ssl_with_wget cxc VNone 0%nat
                                (BytesIO payload)).
  reflexivity.
Defined.
